(** * cppcoreguidelines-macro-usage: the classification logic of
      clang-tools-extra/clang-tidy/cppcoreguidelines/MacroUsageCheck.cpp

    The check subscribes to the preprocessor's "macro defined" events.  For
    each definition it first applies a chain of exclusions and then either
    reports the usage category of the macro (constant, variadic,
    function-like) or, in caps-only mode, reports a name that is not written
    in upper case.  Diagnostics are appended to the reporting sink, which is
    threaded explicitly through the embedding. *)

From Stdlib Require Import Bool Arith List Ascii String Lia.
Import ListNotations.
Open Scope string_scope.
Open Scope nat_scope.
Open Scope list_scope.

(* ------------------------------------------------------------------ *)
(** ** <cctype> and llvm/ADT/STLExtras.h *)

Module CType.

(** [std::isupper] in the "C" locale, the one the tool runs in: the 26
    letters 'A'..'Z'.  A byte above 127 (part of a non-ASCII identifier) is
    no upper-case letter there. *)
Definition isupper (C : ascii) : bool :=
  (65 <=? nat_of_ascii C) && (nat_of_ascii C <=? 90).

(** [std::isdigit]: '0'..'9'. *)
Definition isdigit (C : ascii) : bool :=
  (48 <=? nat_of_ascii C) && (nat_of_ascii C <=? 57).

End CType.

Module STLExtras.

Definition all_of {A : Type} (Range : list A) (P : A -> bool) : bool :=
  forallb P Range.

Definition any_of {A : Type} (Range : list A) (P : A -> bool) : bool :=
  existsb P Range.

End STLExtras.

(** A [StringRef] iterated as a range of [char]. *)
Definition chars (Name : string) : list ascii := list_ascii_of_string Name.

(** [static bool isCapsOnly(StringRef Name)] *)
Definition isCapsOnly (Name : string) : bool :=
  STLExtras.all_of (chars Name) (fun C =>
    CType.isupper C || CType.isdigit C || Ascii.eqb C "_"%char).

(* ------------------------------------------------------------------ *)
(** ** What the host preprocessor hands over *)

Module tok.

(** Modelled from the spec: the token kinds, which the check takes from
    clang/Basic/TokenKinds.h.  A token is a literal (numeric, character or
    string literal, in any of their encodings), the stringize operator
    [hash], the token-paste operator [hashhash], or something else; the last
    group is represented by the identifiers, keywords and punctuators that
    the examples of the specification need. *)
Inductive TokenKind : Type :=
| unknown | eof | identifier
| numeric_constant
| char_constant | wide_char_constant | utf8_char_constant
| utf16_char_constant | utf32_char_constant
| string_literal | wide_string_literal | utf8_string_literal
| utf16_string_literal | utf32_string_literal
| hash | hashhash
| l_paren | r_paren | l_brace | r_brace | comma | ellipsis | semi
| plus | minus | star | slash | less | greater | equal | question | colon
| kw_int | kw_return | kw_sizeof.

Definition TokenKind_eq_dec (K1 K2 : TokenKind) : {K1 = K2} + {K1 <> K2}.
Proof. decide equality. Defined.

Definition eqb (K1 K2 : TokenKind) : bool :=
  if TokenKind_eq_dec K1 K2 then true else false.

Definition isStringLiteral (K : TokenKind) : bool :=
  eqb K string_literal || eqb K wide_string_literal ||
  eqb K utf8_string_literal || eqb K utf16_string_literal ||
  eqb K utf32_string_literal.

(** Modelled from the spec: [tok::isLiteral], behind [Token::isLiteral]:
    "every token in the body is a literal (numeric/string/char literal)". *)
Definition isLiteral (K : TokenKind) : bool :=
  eqb K numeric_constant || eqb K char_constant ||
  eqb K wide_char_constant || eqb K utf8_char_constant ||
  eqb K utf16_char_constant || eqb K utf32_char_constant ||
  isStringLiteral K.

End tok.

(** [IdentifierInfo]: only the spelling is read. *)
Record IdentifierInfo : Type := mkIdentifierInfo { getName : string }.

(** [Token].  The preprocessor fires [MacroDefined] with the identifier token
    that names the macro, so [getIdentifierInfo] is never null where the check
    dereferences it; the tokens of a macro body carry their spelling in the
    same slot, which the check never reads. *)
Record Token : Type := mkToken {
  getKind : tok.TokenKind;
  getIdentifierInfo : IdentifierInfo
}.

(** [Token::is], [Token::isOneOf] and [Token::isLiteral] of
    clang/Lex/Token.h compare and classify the kind. *)
Definition Token_is (T : Token) (K : tok.TokenKind) : bool :=
  tok.eqb (getKind T) K.

Definition Token_isOneOf (T : Token) (K1 K2 : tok.TokenKind) : bool :=
  Token_is T K1 || Token_is T K2.

Definition Token_isLiteral (T : Token) : bool := tok.isLiteral (getKind T).

(** Modelled from the spec: the SourceManager's view of a location
    (clang/Basic/SourceManager.h), which classifies the place of a definition
    as the builtin file, the command-line file or an ordinary file. *)
Inductive FileClass : Type := BuiltinFile | CommandLineFile | OrdinaryFile.

Record SourceLocation : Type := mkLoc {
  loc_file : FileClass;
  loc_offset : nat
}.

Module SM.

Definition isWrittenInBuiltinFile (Loc : SourceLocation) : bool :=
  match loc_file Loc with BuiltinFile => true | _ => false end.

Definition isWrittenInCommandLineFile (Loc : SourceLocation) : bool :=
  match loc_file Loc with CommandLineFile => true | _ => false end.

End SM.

(** [MacroInfo]: the body and the flags the preprocessor has computed. *)
Record MacroInfo : Type := mkMacroInfo {
  tokens : list Token;
  isUsedForHeaderGuard : bool;
  isVariadic : bool;
  isFunctionLike : bool
}.

Definition tokens_empty (Info : MacroInfo) : bool :=
  match tokens Info with [] => true | _ :: _ => false end.

(** [MacroDirective] of a definition. *)
Record MacroDirective : Type := mkMacroDirective {
  getLocation : SourceLocation;
  getMacroInfo : MacroInfo
}.

(** Modelled from the spec: [llvm::Regex] (llvm/Support/Regex.h).  A
    compiled, pre-validated pattern is taken as its match predicate on
    names. *)
Record Regex : Type := mkRegex { Regex_match : string -> bool }.

(* ------------------------------------------------------------------ *)
(** ** The reporting sink *)

(** [diag(Loc, Message) << Arg]: a location, a format string and the argument
    for its [%0]. *)
Record Diagnostic : Type := mkDiagnostic {
  diag_loc : SourceLocation;
  diag_message : string;
  diag_arg : string
}.

(** Code that may report: the sink goes in and comes out. *)
Definition Emit (A : Type) : Type := list Diagnostic -> A * list Diagnostic.

Definition ret {A : Type} (a : A) : Emit A := fun sink => (a, sink).

Definition bind {A B : Type} (m : Emit A) (k : A -> Emit B) : Emit B :=
  fun sink => let (a, sink') := m sink in k a sink'.

Notation "m ;; k" := (bind m (fun _ => k))
  (at level 61, right associativity).

(** [if (c) body;] for a statement that may report. *)
Definition when (c : bool) (body : Emit unit) : Emit unit :=
  if c then body else ret tt.

Definition diag (Loc : SourceLocation) (Message Arg : string) : Emit unit :=
  fun sink => (tt, sink ++ [mkDiagnostic Loc Message Arg]).

(* ------------------------------------------------------------------ *)
(** ** MacroUsageCheck *)

Definition constant_message : string :=
  "macro '%0' used to declare a constant; consider using a 'constexpr' constant".

Definition variadic_message : string :=
  "variadic macro '%0' used; consider using a 'constexpr' variadic template function".

Definition function_like_message : string :=
  "function-like macro '%0' used; consider a 'constexpr' template function".

Definition naming_message : string :=
  "macro definition does not define the macro name '%0' using all uppercase characters".

(** [StringRef::empty] *)
Definition StringRef_empty (S : string) : bool :=
  match S with EmptyString => true | String _ _ => false end.

(** [void MacroUsageCheck::warnMacro(const MacroDirective *MD,
                                     StringRef MacroName)] *)
Definition warnMacro (MD : MacroDirective) (MacroName : string) : Emit unit :=
  let Info := getMacroInfo MD in
  let Message :=
    if STLExtras.all_of (tokens Info) Token_isLiteral then constant_message
    else if isVariadic Info then variadic_message
    else if isFunctionLike Info then function_like_message
    else EmptyString in
  when (negb (StringRef_empty Message))
       (diag (getLocation MD) Message MacroName).

(** [void MacroUsageCheck::warnNaming(const MacroDirective *MD,
                                      StringRef MacroName)] *)
Definition warnNaming (MD : MacroDirective) (MacroName : string) : Emit unit :=
  diag (getLocation MD) naming_message MacroName.

(* ------------------------------------------------------------------ *)
(** ** MacroUsageCallbacks *)

Record MacroUsageCallbacks : Type := mkCallbacks {
  RegExp : Regex;
  CheckCapsOnly : bool;
  IgnoreCommandLineMacros : bool
}.

(** [void MacroDefined(const Token &MacroNameTok, const MacroDirective *MD)] *)
Definition MacroDefined (CB : MacroUsageCallbacks)
    (MacroNameTok : Token) (MD : MacroDirective) : Emit unit :=
  if SM.isWrittenInBuiltinFile (getLocation MD) ||
     isUsedForHeaderGuard (getMacroInfo MD) ||
     tokens_empty (getMacroInfo MD) ||
     STLExtras.any_of (tokens (getMacroInfo MD))
       (fun T => Token_isOneOf T tok.hash tok.hashhash)
  then ret tt
  else
  if IgnoreCommandLineMacros CB &&
     SM.isWrittenInCommandLineFile (getLocation MD)
  then ret tt
  else
  let MacroName := getName (getIdentifierInfo MacroNameTok) in
  if String.eqb MacroName "__GCC_HAVE_DWARF2_CFI_ASM" then ret tt
  else
    when (negb (CheckCapsOnly CB) && negb (Regex_match (RegExp CB) MacroName))
         (warnMacro MD MacroName) ;;
    when (CheckCapsOnly CB && negb (isCapsOnly MacroName))
         (warnNaming MD MacroName).

(** One "macro defined" event as the preprocessor delivers it. *)
Record MacroDefinitionEvent : Type := mkEvent {
  ev_name : Token;
  ev_directive : MacroDirective
}.

(** Modelled from the spec: the preprocessor's dispatch of its callbacks
    (clang/Lex/Preprocessor.h).  It invokes the observer once per macro
    definition, strictly in source order, on one sink. *)
Definition run (CB : MacroUsageCallbacks) (Events : list MacroDefinitionEvent)
    : Emit unit :=
  fold_right (fun Ev rest => MacroDefined CB (ev_name Ev) (ev_directive Ev) ;; rest)
             (ret tt) Events.

(* ------------------------------------------------------------------ *)
(** ** Sample definitions *)

Module Samples.

Definition T (K : tok.TokenKind) (Spelling : string) : Token :=
  mkToken K (mkIdentifierInfo Spelling).

Definition name (N : string) : Token := T tok.identifier N.

Definition here (Offset : nat) : SourceLocation := mkLoc OrdinaryFile Offset.

Definition object_like (Loc : SourceLocation) (Body : list Token)
    : MacroDirective :=
  mkMacroDirective Loc (mkMacroInfo Body false false false).

(** The preprocessor marks a variadic macro as function-like as well. *)
Definition function_like (Loc : SourceLocation) (Variadic : bool)
    (Body : list Token) : MacroDirective :=
  mkMacroDirective Loc (mkMacroInfo Body false Variadic true).

(** [#define MAX 100] *)
Definition MAX : MacroDirective :=
  object_like (here 10) [T tok.numeric_constant "100"].

(** [#define SQUARE(x) ((x)*(x))] *)
Definition SQUARE : MacroDirective :=
  function_like (here 20) false
    [T tok.l_paren "("; T tok.l_paren "("; T tok.identifier "x";
     T tok.r_paren ")"; T tok.star "*"; T tok.l_paren "(";
     T tok.identifier "x"; T tok.r_paren ")"; T tok.r_paren ")"].

(** [#define LOG(fmt, ...) printf(fmt, __VA_ARGS__)] *)
Definition LOG : MacroDirective :=
  function_like (here 30) true
    [T tok.identifier "printf"; T tok.l_paren "("; T tok.identifier "fmt";
     T tok.comma ","; T tok.identifier "__VA_ARGS__"; T tok.r_paren ")"].

(** [#define FLAG someVar] *)
Definition FLAG : MacroDirective :=
  object_like (here 40) [T tok.identifier "someVar"].

(** [#define ZERO(...) 0] *)
Definition ZERO : MacroDirective :=
  function_like (here 50) true [T tok.numeric_constant "0"].

(** [#define STR(x) #x] *)
Definition STR : MacroDirective :=
  function_like (here 60) false [T tok.hash "#"; T tok.identifier "x"].

(** [#define myMacro 1], [#define MY_MACRO 1], [#define DEBUG_myLevel 1] *)
Definition ONE (Offset : nat) : MacroDirective :=
  object_like (here Offset) [T tok.numeric_constant "1"].

(** A pattern that matches the names starting with DEBUG, as the regular
    expression [^DEBUG_*] does. *)
Definition debug_pattern : Regex := mkRegex (String.prefix "DEBUG").

Definition usage_mode : MacroUsageCallbacks :=
  mkCallbacks debug_pattern false true.

Definition caps_mode : MacroUsageCallbacks :=
  mkCallbacks debug_pattern true true.

End Samples.

(* ------------------------------------------------------------------ *)
(** ** Vocabulary of the properties *)

(** The name the check reads off the name token. *)
Definition macroName (MacroNameTok : Token) : string :=
  getName (getIdentifierInfo MacroNameTok).

Definition exempt_name : string := "__GCC_HAVE_DWARF2_CFI_ASM".

Definition isHashOrHashHash (T : Token) : Prop :=
  getKind T = tok.hash \/ getKind T = tok.hashhash.

(** The six rejection rules of the observer, as one decidable test. *)
Definition rejects (CB : MacroUsageCallbacks) (MacroNameTok : Token)
    (MD : MacroDirective) : bool :=
  SM.isWrittenInBuiltinFile (getLocation MD) ||
  isUsedForHeaderGuard (getMacroInfo MD) ||
  tokens_empty (getMacroInfo MD) ||
  existsb (fun T => Token_isOneOf T tok.hash tok.hashhash)
          (tokens (getMacroInfo MD)) ||
  (IgnoreCommandLineMacros CB &&
   SM.isWrittenInCommandLineFile (getLocation MD)) ||
  String.eqb (macroName MacroNameTok) exempt_name.

(** A definition reaches the usage-category check when no rule rejects it,
    the check is not in caps-only mode and the name is not allowed by the
    pattern. *)
Definition reachesUsageCheck (CB : MacroUsageCallbacks) (MacroNameTok : Token)
    (MD : MacroDirective) : Prop :=
  rejects CB MacroNameTok MD = false /\
  CheckCapsOnly CB = false /\
  Regex_match (RegExp CB) (macroName MacroNameTok) = false.

Definition allLiteral (MD : MacroDirective) : Prop :=
  Forall (fun T => Token_isLiteral T = true) (tokens (getMacroInfo MD)).

(** The category of a diagnostic is told by its format string. *)
Definition isUsageDiagnostic (D : Diagnostic) : bool :=
  String.eqb (diag_message D) constant_message ||
  String.eqb (diag_message D) variadic_message ||
  String.eqb (diag_message D) function_like_message.

Definition isNamingDiagnostic (D : Diagnostic) : bool :=
  String.eqb (diag_message D) naming_message.

Definition constantDiag (MacroNameTok : Token) (MD : MacroDirective) :=
  mkDiagnostic (getLocation MD) constant_message (macroName MacroNameTok).

Definition variadicDiag (MacroNameTok : Token) (MD : MacroDirective) :=
  mkDiagnostic (getLocation MD) variadic_message (macroName MacroNameTok).

Definition functionLikeDiag (MacroNameTok : Token) (MD : MacroDirective) :=
  mkDiagnostic (getLocation MD) function_like_message (macroName MacroNameTok).

Definition namingDiag (MacroNameTok : Token) (MD : MacroDirective) :=
  mkDiagnostic (getLocation MD) naming_message (macroName MacroNameTok).

(** The characters a caps-only name may be written with. *)
Definition upper_letters : list ascii := chars "ABCDEFGHIJKLMNOPQRSTUVWXYZ".
Definition digits : list ascii := chars "0123456789".

Definition capsChar (C : ascii) : Prop :=
  In C upper_letters \/ In C digits \/ C = "_"%char.

(** [capsChar] as a test. *)
Definition capsCharb (C : ascii) : bool :=
  existsb (Ascii.eqb C) (upper_letters ++ digits ++ ["_"%char]).

(** What one event adds to an empty sink. *)
Definition emitted (CB : MacroUsageCallbacks) (Ev : MacroDefinitionEvent)
    : list Diagnostic :=
  snd (MacroDefined CB (ev_name Ev) (ev_directive Ev) []).

(* ------------------------------------------------------------------ *)
(** ** The check object: its options, their storage and the registration *)

Module Chk.

(** The three options a [MacroUsageCheck] holds; [storeOptions] and
    [registerPPCallbacks] read them. *)
Record MacroUsageCheck : Type := mkCheck {
  AllowedRegexp : string;
  CheckCapsOnly : bool;
  IgnoreCommandLineMacros : bool
}.

End Chk.

(** A value handed to [Options.store]: the check stores one string and two
    booleans. *)
Inductive OptionValue : Type :=
| StringValue (S : string)
| BoolValue (B : bool).

Section StoreOptions.

(** [ClangTidyOptions::OptionMap] and [Options.store(Opts, LocalName, Value)]
    are taken as they come. *)
Variable OptionMap : Type.
Variable store : OptionMap -> string -> OptionValue -> OptionMap.

(** [void MacroUsageCheck::storeOptions(ClangTidyOptions::OptionMap &Opts)] *)
Definition storeOptions (This : Chk.MacroUsageCheck) (Opts : OptionMap)
    : OptionMap :=
  let Opts1 := store Opts "AllowedRegexp"
                 (StringValue (Chk.AllowedRegexp This)) in
  let Opts2 := store Opts1 "CheckCapsOnly"
                 (BoolValue (Chk.CheckCapsOnly This)) in
  store Opts2 "IgnoreCommandLineMacros"
    (BoolValue (Chk.IgnoreCommandLineMacros This)).

End StoreOptions.

(** What a store must do for a reader [get] to find the options again: the
    last value stored under a name is the one read, and storing under one
    name leaves the other names alone. *)
Definition storeLaws {OptionMap : Type}
    (store : OptionMap -> string -> OptionValue -> OptionMap)
    (get : OptionMap -> string -> option OptionValue) : Prop :=
  (forall Opts K V, get (store Opts K V) K = Some V) /\
  (forall Opts K K' V, K <> K' -> get (store Opts K V) K' = get Opts K').

(** A plain map from names to values, with its store and its reader. *)
Definition NameMap : Type := string -> option OptionValue.

Definition NameMap_store (Opts : NameMap) (K : string) (V : OptionValue)
    : NameMap :=
  fun K' => if String.eqb K K' then Some V else Opts K'.

Definition NameMap_get (Opts : NameMap) (K : string) : option OptionValue :=
  Opts K.

Definition NameMap_empty : NameMap := fun _ => None.

Section Registration.

(** [llvm::Regex(StringRef)], the compilation of the pattern. *)
Variable compile : string -> Regex.

(** [MacroUsageCallbacks(Check, SM, RegExpStr, CapsOnly, IgnoreCommandLine)]:
    the check is the sink and the source manager classifies the locations;
    the three other arguments initialise the fields. *)
Definition MacroUsageCallbacks_new (RegExpStr : string)
    (CapsOnly IgnoreCommandLine : bool) : MacroUsageCallbacks :=
  mkCallbacks (compile RegExpStr) CapsOnly IgnoreCommandLine.

(** The preprocessor and its [addPPCallbacks] are taken as they come. *)
Variable Preprocessor : Type.
Variable addPPCallbacks : Preprocessor -> MacroUsageCallbacks -> Preprocessor.

(** [void MacroUsageCheck::registerPPCallbacks(const SourceManager &SM,
       Preprocessor *PP, Preprocessor *ModuleExpanderPP)] *)
Definition registerPPCallbacks (This : Chk.MacroUsageCheck)
    (PP : Preprocessor) : Preprocessor :=
  addPPCallbacks PP
    (MacroUsageCallbacks_new (Chk.AllowedRegexp This)
       (Chk.CheckCapsOnly This) (Chk.IgnoreCommandLineMacros This)).

End Registration.

(** The events a run does not reject. *)
Definition survivors (CB : MacroUsageCallbacks)
    (Events : list MacroDefinitionEvent) : list MacroDefinitionEvent :=
  filter (fun Ev => negb (rejects CB (ev_name Ev) (ev_directive Ev))) Events.

(** A diagnostic without its location. *)
Definition wording (D : Diagnostic) : string * string :=
  (diag_message D, diag_arg D).

(* ------------------------------------------------------------------ *)
(** ** The specification's examples, run *)

Module SampleRuns.
Import Samples.

Example MAX_is_reported_as_constant :
  MacroDefined usage_mode (name "MAX") MAX [] =
  (tt, [mkDiagnostic (here 10) constant_message "MAX"]).
Proof. reflexivity. Qed.

Example SQUARE_is_reported_as_function_like :
  MacroDefined usage_mode (name "SQUARE") SQUARE [] =
  (tt, [mkDiagnostic (here 20) function_like_message "SQUARE"]).
Proof. reflexivity. Qed.

Example LOG_is_reported_as_variadic :
  MacroDefined usage_mode (name "LOG") LOG [] =
  (tt, [mkDiagnostic (here 30) variadic_message "LOG"]).
Proof. reflexivity. Qed.

Example FLAG_is_not_reported :
  MacroDefined usage_mode (name "FLAG") FLAG [] = (tt, []).
Proof. reflexivity. Qed.

Example STR_is_not_reported :
  MacroDefined usage_mode (name "STR") STR [] = (tt, []).
Proof. reflexivity. Qed.

Example myMacro_is_reported_for_its_name :
  MacroDefined caps_mode (name "myMacro") (ONE 70) [] =
  (tt, [mkDiagnostic (here 70) naming_message "myMacro"]).
Proof. reflexivity. Qed.

Example MY_MACRO_is_not_reported :
  MacroDefined caps_mode (name "MY_MACRO") (ONE 80) [] = (tt, []).
Proof. reflexivity. Qed.

End SampleRuns.

(* ------------------------------------------------------------------ *)
(** ** Basic facts *)

(** Case analysis on every test the goal still branches on. *)
Ltac break_ifs :=
  repeat match goal with
         | |- context [if ?c then _ else _] => destruct c; simpl
         end.

Lemma tok_eqb_eq (K1 K2 : tok.TokenKind) : tok.eqb K1 K2 = true <-> K1 = K2.
Proof.
  unfold tok.eqb. destruct (tok.TokenKind_eq_dec K1 K2); split; congruence.
Qed.

Lemma isOneOf_hash_iff (T : Token) :
  Token_isOneOf T tok.hash tok.hashhash = true <-> isHashOrHashHash T.
Proof.
  unfold Token_isOneOf, Token_is, isHashOrHashHash.
  rewrite orb_true_iff, !tok_eqb_eq. reflexivity.
Qed.

Lemma any_hash_iff (Body : list Token) :
  existsb (fun T => Token_isOneOf T tok.hash tok.hashhash) Body = true <->
  Exists isHashOrHashHash Body.
Proof.
  rewrite existsb_exists, Exists_exists.
  split; intros [T [HIn HT]]; exists T; split; trivial;
    now apply isOneOf_hash_iff.
Qed.

Lemma tokens_empty_iff (Info : MacroInfo) :
  tokens_empty Info = true <-> tokens Info = [].
Proof.
  unfold tokens_empty. destruct (tokens Info); split; congruence.
Qed.

Lemma builtin_iff (Loc : SourceLocation) :
  SM.isWrittenInBuiltinFile Loc = true <-> loc_file Loc = BuiltinFile.
Proof.
  unfold SM.isWrittenInBuiltinFile. destruct (loc_file Loc); split; congruence.
Qed.

Lemma command_line_iff (Loc : SourceLocation) :
  SM.isWrittenInCommandLineFile Loc = true <-> loc_file Loc = CommandLineFile.
Proof.
  unfold SM.isWrittenInCommandLineFile.
  destruct (loc_file Loc); split; congruence.
Qed.

(** [rejects] is the disjunction of the six rules. *)
Lemma rejects_iff (CB : MacroUsageCallbacks) (MacroNameTok : Token)
    (MD : MacroDirective) :
  rejects CB MacroNameTok MD = true <->
  loc_file (getLocation MD) = BuiltinFile \/
  isUsedForHeaderGuard (getMacroInfo MD) = true \/
  tokens (getMacroInfo MD) = [] \/
  Exists isHashOrHashHash (tokens (getMacroInfo MD)) \/
  (IgnoreCommandLineMacros CB = true /\
   loc_file (getLocation MD) = CommandLineFile) \/
  macroName MacroNameTok = exempt_name.
Proof.
  unfold rejects.
  rewrite !orb_true_iff, andb_true_iff, builtin_iff, command_line_iff,
    tokens_empty_iff, any_hash_iff, String.eqb_eq.
  tauto.
Qed.

Lemma all_literal_iff (MD : MacroDirective) :
  STLExtras.all_of (tokens (getMacroInfo MD)) Token_isLiteral = true <->
  allLiteral MD.
Proof.
  unfold STLExtras.all_of, allLiteral. rewrite forallb_forall, Forall_forall.
  reflexivity.
Qed.

Lemma not_all_literal_iff (MD : MacroDirective) :
  STLExtras.all_of (tokens (getMacroInfo MD)) Token_isLiteral = false <->
  ~ allLiteral MD.
Proof.
  rewrite <- all_literal_iff.
  destruct (STLExtras.all_of _ _); split; congruence.
Qed.

(** A rejected definition leaves the sink alone. *)
Lemma MacroDefined_rejected (CB : MacroUsageCallbacks) (MacroNameTok : Token)
    (MD : MacroDirective) (Sink : list Diagnostic) :
  rejects CB MacroNameTok MD = true ->
  MacroDefined CB MacroNameTok MD Sink = (tt, Sink).
Proof.
  unfold rejects, MacroDefined, STLExtras.any_of, macroName, exempt_name.
  intros H.
  destruct (SM.isWrittenInBuiltinFile _ || _ || _ || existsb _ _); [reflexivity|].
  destruct (IgnoreCommandLineMacros CB && _); [reflexivity|].
  simpl in H. rewrite H. reflexivity.
Qed.

(** A surviving definition goes through the two guarded calls. *)
Lemma MacroDefined_survivor (CB : MacroUsageCallbacks) (MacroNameTok : Token)
    (MD : MacroDirective) (Sink : list Diagnostic) :
  rejects CB MacroNameTok MD = false ->
  MacroDefined CB MacroNameTok MD Sink =
  (when (negb (CheckCapsOnly CB) &&
         negb (Regex_match (RegExp CB) (macroName MacroNameTok)))
        (warnMacro MD (macroName MacroNameTok)) ;;
   when (CheckCapsOnly CB && negb (isCapsOnly (macroName MacroNameTok)))
        (warnNaming MD (macroName MacroNameTok))) Sink.
Proof.
  unfold rejects, MacroDefined, STLExtras.any_of, macroName, exempt_name.
  intros H.
  destruct (SM.isWrittenInBuiltinFile _ || _ || _ || existsb _ _); [discriminate|].
  destruct (IgnoreCommandLineMacros CB && _); [discriminate|].
  simpl in H. rewrite H. reflexivity.
Qed.

(** The four outcomes of [warnMacro]. *)
Lemma warnMacro_constant (MD : MacroDirective) (N : string) (Sink : list Diagnostic) :
  allLiteral MD ->
  warnMacro MD N Sink =
  (tt, Sink ++ [mkDiagnostic (getLocation MD) constant_message N]).
Proof.
  intros H. apply all_literal_iff in H. unfold warnMacro. rewrite H. reflexivity.
Qed.

Lemma warnMacro_variadic (MD : MacroDirective) (N : string) (Sink : list Diagnostic) :
  ~ allLiteral MD -> isVariadic (getMacroInfo MD) = true ->
  warnMacro MD N Sink =
  (tt, Sink ++ [mkDiagnostic (getLocation MD) variadic_message N]).
Proof.
  intros H HV. apply not_all_literal_iff in H. unfold warnMacro.
  rewrite H, HV. reflexivity.
Qed.

Lemma warnMacro_function_like (MD : MacroDirective) (N : string)
    (Sink : list Diagnostic) :
  ~ allLiteral MD -> isVariadic (getMacroInfo MD) = false ->
  isFunctionLike (getMacroInfo MD) = true ->
  warnMacro MD N Sink =
  (tt, Sink ++ [mkDiagnostic (getLocation MD) function_like_message N]).
Proof.
  intros H HV HF. apply not_all_literal_iff in H. unfold warnMacro.
  rewrite H, HV, HF. reflexivity.
Qed.

Lemma warnMacro_object_like (MD : MacroDirective) (N : string)
    (Sink : list Diagnostic) :
  ~ allLiteral MD -> isVariadic (getMacroInfo MD) = false ->
  isFunctionLike (getMacroInfo MD) = false ->
  warnMacro MD N Sink = (tt, Sink).
Proof.
  intros H HV HF. apply not_all_literal_iff in H. unfold warnMacro.
  rewrite H, HV, HF. reflexivity.
Qed.

(** A definition that reaches the usage-category check is handed to
    [warnMacro] and to nothing else. *)
Lemma MacroDefined_usage (CB : MacroUsageCallbacks) (MacroNameTok : Token)
    (MD : MacroDirective) (Sink : list Diagnostic) :
  reachesUsageCheck CB MacroNameTok MD ->
  MacroDefined CB MacroNameTok MD Sink =
  warnMacro MD (macroName MacroNameTok) Sink.
Proof.
  intros (HR & HC & HM). rewrite (MacroDefined_survivor _ _ _ _ HR).
  rewrite HC, HM. unfold bind, when. simpl.
  destruct (warnMacro MD (macroName MacroNameTok) Sink) as [[] Sink'].
  reflexivity.
Qed.

(** In caps-only mode a surviving definition is judged by its name alone. *)
Lemma MacroDefined_naming (CB : MacroUsageCallbacks) (MacroNameTok : Token)
    (MD : MacroDirective) (Sink : list Diagnostic) :
  rejects CB MacroNameTok MD = false ->
  CheckCapsOnly CB = true ->
  MacroDefined CB MacroNameTok MD Sink =
  (tt, Sink ++ if isCapsOnly (macroName MacroNameTok) then []
               else [namingDiag MacroNameTok MD]).
Proof.
  intros HR HC. rewrite (MacroDefined_survivor _ _ _ _ HR), HC.
  unfold bind, when, warnNaming, diag, ret, namingDiag. simpl.
  destruct (isCapsOnly (macroName MacroNameTok)); simpl;
    [rewrite app_nil_r|]; reflexivity.
Qed.

(** With caps-only mode off, a surviving definition whose name the pattern
    allows is not reported. *)
Lemma MacroDefined_allowed (CB : MacroUsageCallbacks) (MacroNameTok : Token)
    (MD : MacroDirective) (Sink : list Diagnostic) :
  CheckCapsOnly CB = false ->
  Regex_match (RegExp CB) (macroName MacroNameTok) = true ->
  MacroDefined CB MacroNameTok MD Sink = (tt, Sink).
Proof.
  intros HC HM.
  destruct (rejects CB MacroNameTok MD) eqn:HR.
  - now apply MacroDefined_rejected.
  - rewrite (MacroDefined_survivor _ _ _ _ HR), HC, HM. reflexivity.
Qed.

(** Every call appends to the sink, and what it appends does not depend on
    what the sink holds. *)
Lemma MacroDefined_appends (CB : MacroUsageCallbacks) (Ev : MacroDefinitionEvent)
    (Sink : list Diagnostic) :
  MacroDefined CB (ev_name Ev) (ev_directive Ev) Sink =
  (tt, Sink ++ emitted CB Ev).
Proof.
  unfold emitted.
  destruct (rejects CB (ev_name Ev) (ev_directive Ev)) eqn:HR.
  - rewrite !MacroDefined_rejected by assumption. simpl.
    now rewrite app_nil_r.
  - rewrite !(MacroDefined_survivor _ _ _ _ HR).
    unfold bind, when, warnMacro, warnNaming, diag, ret.
    destruct (CheckCapsOnly CB), (Regex_match _ _), (isCapsOnly _); simpl;
      break_ifs; rewrite ?app_nil_r; reflexivity.
Qed.

(** The decision table of one event: what it adds to the sink, by cases in
    the order the code takes them. *)
Lemma emitted_table (CB : MacroUsageCallbacks) (MacroNameTok : Token)
    (MD : MacroDirective) :
  emitted CB (mkEvent MacroNameTok MD) =
  if rejects CB MacroNameTok MD then []
  else if CheckCapsOnly CB then
    if isCapsOnly (macroName MacroNameTok) then []
    else [namingDiag MacroNameTok MD]
  else if Regex_match (RegExp CB) (macroName MacroNameTok) then []
  else if STLExtras.all_of (tokens (getMacroInfo MD)) Token_isLiteral
       then [constantDiag MacroNameTok MD]
  else if isVariadic (getMacroInfo MD) then [variadicDiag MacroNameTok MD]
  else if isFunctionLike (getMacroInfo MD)
       then [functionLikeDiag MacroNameTok MD]
  else [].
Proof.
  unfold emitted. simpl.
  destruct (rejects CB MacroNameTok MD) eqn:HR.
  - now rewrite MacroDefined_rejected.
  - destruct (CheckCapsOnly CB) eqn:HC.
    + rewrite MacroDefined_naming by assumption. reflexivity.
    + destruct (Regex_match (RegExp CB) (macroName MacroNameTok)) eqn:HM.
      * now rewrite MacroDefined_allowed.
      * rewrite MacroDefined_usage by (repeat split; assumption).
        unfold warnMacro, when, diag, ret.
        destruct (STLExtras.all_of _ _); [reflexivity|].
        destruct (isVariadic _); [reflexivity|].
        destruct (isFunctionLike _); reflexivity.
Qed.

Lemma MacroDefined_emitted (CB : MacroUsageCallbacks) (MacroNameTok : Token)
    (MD : MacroDirective) (Sink : list Diagnostic) :
  MacroDefined CB MacroNameTok MD Sink =
  (tt, Sink ++ emitted CB (mkEvent MacroNameTok MD)).
Proof. exact (MacroDefined_appends CB (mkEvent MacroNameTok MD) Sink). Qed.

(** The character test of [isCapsOnly] accepts the 26 upper-case letters,
    the 10 digits and the underscore, and nothing else. *)
Lemma caps_test_table (C : ascii) :
  CType.isupper C || CType.isdigit C || Ascii.eqb C "_"%char = capsCharb C.
Proof.
  destruct C as [[] [] [] [] [] [] [] []]; vm_compute; reflexivity.
Qed.

Lemma capsCharb_iff (C : ascii) : capsCharb C = true <-> capsChar C.
Proof.
  unfold capsCharb, capsChar. rewrite existsb_exists. split.
  - intros [C' [HIn HEq]]. apply Ascii.eqb_eq in HEq. subst C'.
    rewrite !in_app_iff in HIn. destruct HIn as [H | [H | H]]; auto.
    destruct H as [H | []]. auto.
  - intros H. exists C. rewrite Ascii.eqb_refl, !in_app_iff. simpl.
    intuition auto.
Qed.

Lemma isCapsOnly_iff (Name : string) :
  isCapsOnly Name = true <-> Forall capsChar (chars Name).
Proof.
  unfold isCapsOnly, STLExtras.all_of.
  rewrite forallb_forall, Forall_forall.
  split; intros H C HIn.
  - apply capsCharb_iff. rewrite <- caps_test_table. now apply H.
  - rewrite caps_test_table. apply capsCharb_iff. now apply H.
Qed.

Lemma isCapsOnly_false_iff (Name : string) :
  isCapsOnly Name = false <-> ~ Forall capsChar (chars Name).
Proof.
  rewrite <- isCapsOnly_iff. destruct (isCapsOnly Name); split; congruence.
Qed.

Lemma sink_grows (Sink : list Diagnostic) (D : Diagnostic) :
  Sink ++ [D] <> Sink.
Proof.
  intros H. apply (f_equal (@List.length Diagnostic)) in H.
  rewrite length_app in H. simpl in H. lia.
Qed.

(** The driver adds the events' diagnostics one event after the other. *)
Lemma run_appends (CB : MacroUsageCallbacks) (Events : list MacroDefinitionEvent) :
  forall Sink, run CB Events Sink = (tt, Sink ++ flat_map (emitted CB) Events).
Proof.
  induction Events as [|Ev Events IH]; intros Sink; simpl.
  - unfold ret. now rewrite app_nil_r.
  - unfold bind. rewrite MacroDefined_appends.
    fold (run CB Events). rewrite IH, app_assoc. reflexivity.
Qed.

(* ------------------------------------------------------------------ *)
(** ** The usage-category check *)

(** C1. A macro definition that reaches the usage-category check adds at
    most one diagnostic to the sink, chosen in this order: the constant-like
    one when every body token is a literal; otherwise the variadic one when
    the macro is variadic; otherwise the function-like one when the macro is
    function-like; otherwise (object-like, some token not a literal)
    nothing. *)
Theorem usage_category_precedence (CB : MacroUsageCallbacks)
    (MacroNameTok : Token) (MD : MacroDirective) (Sink : list Diagnostic) :
  reachesUsageCheck CB MacroNameTok MD ->
  (exists Ds, MacroDefined CB MacroNameTok MD Sink = (tt, Sink ++ Ds) /\
              List.length Ds <= 1) /\
  (allLiteral MD ->
   MacroDefined CB MacroNameTok MD Sink =
   (tt, Sink ++ [constantDiag MacroNameTok MD])) /\
  (~ allLiteral MD -> isVariadic (getMacroInfo MD) = true ->
   MacroDefined CB MacroNameTok MD Sink =
   (tt, Sink ++ [variadicDiag MacroNameTok MD])) /\
  (~ allLiteral MD -> isVariadic (getMacroInfo MD) = false ->
   isFunctionLike (getMacroInfo MD) = true ->
   MacroDefined CB MacroNameTok MD Sink =
   (tt, Sink ++ [functionLikeDiag MacroNameTok MD])) /\
  (~ allLiteral MD -> isVariadic (getMacroInfo MD) = false ->
   isFunctionLike (getMacroInfo MD) = false ->
   MacroDefined CB MacroNameTok MD Sink = (tt, Sink)).
Proof.
  intros HReach. rewrite (MacroDefined_usage _ _ _ _ HReach).
  split; [|repeat split; intros].
  - exists (emitted CB (mkEvent MacroNameTok MD)). split.
    + rewrite <- (MacroDefined_usage _ _ _ _ HReach).
      apply MacroDefined_emitted.
    + rewrite emitted_table.
      break_ifs; simpl; lia.
  - now apply warnMacro_constant.
  - now apply warnMacro_variadic.
  - now apply warnMacro_function_like.
  - now apply warnMacro_object_like.
Qed.

Lemma usage_category_precedence_witness :
  reachesUsageCheck Samples.usage_mode (Samples.name "SQUARE") Samples.SQUARE /\
  MacroDefined Samples.usage_mode (Samples.name "SQUARE") Samples.SQUARE [] =
  (tt, [functionLikeDiag (Samples.name "SQUARE") Samples.SQUARE]).
Proof.
  assert (HReach : reachesUsageCheck Samples.usage_mode
                     (Samples.name "SQUARE") Samples.SQUARE)
    by (repeat split; reflexivity).
  split; [exact HReach|].
  apply (usage_category_precedence _ _ _ [] HReach).
  - intros HL. inversion HL. discriminate.
  - reflexivity.
  - reflexivity.
Defined.

(** C2. One macro definition adds at most one usage-category diagnostic and
    at most one naming diagnostic, and the two checks never both apply to
    it: in caps-only mode the outcome is that of the naming check alone
    (nothing, or the one naming diagnostic), and with caps-only mode off it
    is that of the usage-category check alone (the pattern test followed by
    [warnMacro]). *)
Theorem one_check_per_definition (CB : MacroUsageCallbacks)
    (MacroNameTok : Token) (MD : MacroDirective) (Sink : list Diagnostic) :
  let Ds := emitted CB (mkEvent MacroNameTok MD) in
  MacroDefined CB MacroNameTok MD Sink = (tt, Sink ++ Ds) /\
  List.length (filter isUsageDiagnostic Ds) <= 1 /\
  List.length (filter isNamingDiagnostic Ds) <= 1 /\
  (CheckCapsOnly CB = true ->
   filter isUsageDiagnostic Ds = [] /\
   Ds = if rejects CB MacroNameTok MD || isCapsOnly (macroName MacroNameTok)
        then [] else [namingDiag MacroNameTok MD]) /\
  (CheckCapsOnly CB = false ->
   filter isNamingDiagnostic Ds = [] /\
   MacroDefined CB MacroNameTok MD Sink =
   if rejects CB MacroNameTok MD ||
      Regex_match (RegExp CB) (macroName MacroNameTok)
   then (tt, Sink) else warnMacro MD (macroName MacroNameTok) Sink).
Proof.
  intros Ds. split; [apply MacroDefined_emitted|].
  assert (HDs : Ds = emitted CB (mkEvent MacroNameTok MD)) by reflexivity.
  clearbody Ds. rewrite emitted_table in HDs.
  destruct (rejects CB MacroNameTok MD) eqn:HR.
  { subst Ds. simpl. repeat split; auto.
    now apply MacroDefined_rejected. }
  destruct (CheckCapsOnly CB) eqn:HC.
  { destruct (isCapsOnly (macroName MacroNameTok)); subst Ds; simpl;
      repeat split; auto; discriminate. }
  destruct (Regex_match (RegExp CB) (macroName MacroNameTok)) eqn:HM.
  { subst Ds. simpl. repeat split; auto; try discriminate.
    now apply MacroDefined_allowed. }
  assert (HU : MacroDefined CB MacroNameTok MD Sink =
               warnMacro MD (macroName MacroNameTok) Sink)
    by (apply MacroDefined_usage; repeat split; assumption).
  destruct (STLExtras.all_of _ _);
    [|destruct (isVariadic _); [|destruct (isFunctionLike _)]];
    subst Ds; simpl; repeat split; auto; discriminate.
Qed.

Lemma one_check_per_definition_witness :
  filter isUsageDiagnostic
    (emitted Samples.caps_mode
       (mkEvent (Samples.name "myMacro") (Samples.ONE 70))) = [] /\
  filter isNamingDiagnostic
    (emitted Samples.usage_mode
       (mkEvent (Samples.name "MAX") Samples.MAX)) = [].
Proof.
  split.
  - apply (one_check_per_definition Samples.caps_mode
             (Samples.name "myMacro") (Samples.ONE 70) []).
    reflexivity.
  - apply (one_check_per_definition Samples.usage_mode
             (Samples.name "MAX") Samples.MAX []).
    reflexivity.
Defined.

(* ------------------------------------------------------------------ *)
(** ** The exclusions *)

(** C3. A macro definition whose body is empty, or whose body holds a
    stringize or a token-paste operator anywhere, or which is a header
    guard, or which is written in the builtin file, adds nothing to the
    sink, whatever the pattern, the caps-only mode and the command-line
    option are. *)
Theorem excluded_definitions_are_silent (CB : MacroUsageCallbacks)
    (MacroNameTok : Token) (MD : MacroDirective) (Sink : list Diagnostic) :
  tokens (getMacroInfo MD) = [] \/
  Exists isHashOrHashHash (tokens (getMacroInfo MD)) \/
  isUsedForHeaderGuard (getMacroInfo MD) = true \/
  loc_file (getLocation MD) = BuiltinFile ->
  MacroDefined CB MacroNameTok MD Sink = (tt, Sink).
Proof.
  intros H. apply MacroDefined_rejected, rejects_iff. tauto.
Qed.

Lemma excluded_definitions_are_silent_witness :
  MacroDefined Samples.caps_mode (Samples.name "str") Samples.STR [] = (tt, []).
Proof.
  apply (excluded_definitions_are_silent Samples.caps_mode
           (Samples.name "str") Samples.STR []).
  right; left. apply Exists_cons_hd. left. reflexivity.
Defined.

(* ------------------------------------------------------------------ *)
(** ** Variadic and constant-like macros *)

(** C4, as stated, fails: [#define ZERO(...) 0] is variadic and receives a
    usage-category diagnostic, which is the constant-like one and not the
    variadic one. *)
Lemma variadic_constant_counterexample :
  isVariadic (getMacroInfo Samples.ZERO) = true /\
  MacroDefined Samples.usage_mode (Samples.name "ZERO") Samples.ZERO [] =
  (tt, [constantDiag (Samples.name "ZERO") Samples.ZERO]) /\
  isUsageDiagnostic (constantDiag (Samples.name "ZERO") Samples.ZERO) = true /\
  constantDiag (Samples.name "ZERO") Samples.ZERO <>
  variadicDiag (Samples.name "ZERO") Samples.ZERO.
Proof.
  repeat split; try reflexivity. discriminate.
Qed.

(** C4, amended. A usage-category diagnostic that a variadic macro (even
    one that is also function-like) receives is the only diagnostic of that
    definition and is never the function-like one: it is exactly the
    variadic one when some body token is not a literal, and exactly the
    constant-like one when every body token is a literal. *)
Theorem variadic_never_function_like (CB : MacroUsageCallbacks)
    (MacroNameTok : Token) (MD : MacroDirective) (D : Diagnostic) :
  isVariadic (getMacroInfo MD) = true ->
  In D (emitted CB (mkEvent MacroNameTok MD)) ->
  isUsageDiagnostic D = true ->
  emitted CB (mkEvent MacroNameTok MD) = [D] /\
  D <> functionLikeDiag MacroNameTok MD /\
  (~ allLiteral MD -> D = variadicDiag MacroNameTok MD) /\
  (allLiteral MD -> D = constantDiag MacroNameTok MD).
Proof.
  intros HV HIn HU. rewrite emitted_table in *. rewrite HV in *.
  destruct (rejects CB MacroNameTok MD); [contradiction|].
  destruct (CheckCapsOnly CB).
  { destruct (isCapsOnly _); [contradiction|].
    destruct HIn as [<- | []]. discriminate. }
  destruct (Regex_match _ _); [contradiction|].
  destruct (STLExtras.all_of _ _) eqn:HL; destruct HIn as [<- | []].
  - apply all_literal_iff in HL.
    repeat split; try discriminate; tauto.
  - apply not_all_literal_iff in HL.
    repeat split; try discriminate; tauto.
Qed.

Lemma variadic_never_function_like_witness :
  emitted Samples.usage_mode (mkEvent (Samples.name "LOG") Samples.LOG) =
  [variadicDiag (Samples.name "LOG") Samples.LOG].
Proof.
  apply (variadic_never_function_like Samples.usage_mode
           (Samples.name "LOG") Samples.LOG
           (variadicDiag (Samples.name "LOG") Samples.LOG)).
  - reflexivity.
  - left. reflexivity.
  - reflexivity.
Defined.

(** C5, as stated, fails: in caps-only mode [#define MY_MACRO 1], whose body
    is one numeric literal, receives no diagnostic at all. *)
Lemma literal_body_counterexample :
  allLiteral (Samples.ONE 80) /\
  MacroDefined Samples.caps_mode (Samples.name "MY_MACRO") (Samples.ONE 80) [] =
  (tt, []).
Proof.
  split; [|reflexivity].
  apply all_literal_iff. reflexivity.
Qed.

(** C5, amended. A macro definition whose body is composed entirely of
    literal tokens and which reaches the usage-category check (no rule
    rejects it, caps-only mode is off and the pattern does not allow its
    name) receives exactly the constant-like diagnostic. *)
Theorem literal_body_is_constant_like (CB : MacroUsageCallbacks)
    (MacroNameTok : Token) (MD : MacroDirective) (Sink : list Diagnostic) :
  reachesUsageCheck CB MacroNameTok MD ->
  allLiteral MD ->
  MacroDefined CB MacroNameTok MD Sink =
  (tt, Sink ++ [constantDiag MacroNameTok MD]).
Proof.
  intros HReach HL. rewrite (MacroDefined_usage _ _ _ _ HReach).
  now apply warnMacro_constant.
Qed.

Lemma literal_body_is_constant_like_witness :
  MacroDefined Samples.usage_mode (Samples.name "MAX") Samples.MAX [] =
  (tt, [constantDiag (Samples.name "MAX") Samples.MAX]).
Proof.
  apply (literal_body_is_constant_like Samples.usage_mode
           (Samples.name "MAX") Samples.MAX []).
  - repeat split; reflexivity.
  - apply all_literal_iff. reflexivity.
Defined.

(* ------------------------------------------------------------------ *)
(** ** The allowed pattern and the exempt name *)

(** C6. With caps-only mode off, a macro definition whose name matches the
    allowed pattern receives no usage-category diagnostic; the sink is left
    as it was. *)
Theorem allowed_names_are_not_reported (CB : MacroUsageCallbacks)
    (MacroNameTok : Token) (MD : MacroDirective) (Sink : list Diagnostic) :
  CheckCapsOnly CB = false ->
  Regex_match (RegExp CB) (macroName MacroNameTok) = true ->
  MacroDefined CB MacroNameTok MD Sink = (tt, Sink) /\
  filter isUsageDiagnostic (emitted CB (mkEvent MacroNameTok MD)) = [].
Proof.
  intros HC HM. split; [now apply MacroDefined_allowed|].
  unfold emitted. simpl. now rewrite MacroDefined_allowed.
Qed.

Lemma allowed_names_are_not_reported_witness :
  MacroDefined Samples.usage_mode (Samples.name "DEBUG_LEVEL")
    (Samples.ONE 90) [] = (tt, []).
Proof.
  apply (allowed_names_are_not_reported Samples.usage_mode
           (Samples.name "DEBUG_LEVEL") (Samples.ONE 90) []);
    reflexivity.
Defined.

(** C8. A macro definition named [__GCC_HAVE_DWARF2_CFI_ASM] is rejected
    before either check: it adds nothing to the sink, in every
    configuration. *)
Theorem exempt_name_is_silent (CB : MacroUsageCallbacks)
    (MacroNameTok : Token) (MD : MacroDirective) (Sink : list Diagnostic) :
  macroName MacroNameTok = "__GCC_HAVE_DWARF2_CFI_ASM" ->
  rejects CB MacroNameTok MD = true /\
  MacroDefined CB MacroNameTok MD Sink = (tt, Sink).
Proof.
  intros HN.
  assert (HR : rejects CB MacroNameTok MD = true)
    by (apply rejects_iff; unfold exempt_name; tauto).
  split; [exact HR|]. now apply MacroDefined_rejected.
Qed.

Lemma exempt_name_is_silent_witness :
  MacroDefined Samples.caps_mode (Samples.name "__GCC_HAVE_DWARF2_CFI_ASM")
    (Samples.ONE 100) [] = (tt, []).
Proof.
  apply (exempt_name_is_silent Samples.caps_mode
           (Samples.name "__GCC_HAVE_DWARF2_CFI_ASM") (Samples.ONE 100) []).
  reflexivity.
Defined.

(* ------------------------------------------------------------------ *)
(** ** The naming check *)

(** C7. In caps-only mode, for a macro definition that no rule rejects: the
    sink is left as it was if and only if every character of the macro name
    is an upper-case letter, a digit or an underscore; otherwise exactly one
    diagnostic, the naming one, is added. *)
Theorem naming_check_iff_caps_only (CB : MacroUsageCallbacks)
    (MacroNameTok : Token) (MD : MacroDirective) (Sink : list Diagnostic) :
  CheckCapsOnly CB = true ->
  rejects CB MacroNameTok MD = false ->
  (MacroDefined CB MacroNameTok MD Sink = (tt, Sink) <->
   Forall capsChar (chars (macroName MacroNameTok))) /\
  (~ Forall capsChar (chars (macroName MacroNameTok)) ->
   MacroDefined CB MacroNameTok MD Sink =
   (tt, Sink ++ [namingDiag MacroNameTok MD])).
Proof.
  intros HC HR. rewrite (MacroDefined_naming _ _ _ _ HR HC).
  rewrite <- isCapsOnly_iff.
  destruct (isCapsOnly (macroName MacroNameTok)).
  - rewrite app_nil_r. split; [tauto|]. intros H. now contradiction H.
  - split; [|reflexivity]. split; [|discriminate].
    intros H. exfalso.
    apply (sink_grows Sink (namingDiag MacroNameTok MD)). congruence.
Qed.

Lemma naming_check_iff_caps_only_witness :
  MacroDefined Samples.caps_mode (Samples.name "myMacro") (Samples.ONE 70) [] =
  (tt, [namingDiag (Samples.name "myMacro") (Samples.ONE 70)]) /\
  MacroDefined Samples.caps_mode (Samples.name "MY_MACRO") (Samples.ONE 80) [] =
  (tt, []).
Proof.
  split.
  - apply (naming_check_iff_caps_only Samples.caps_mode
             (Samples.name "myMacro") (Samples.ONE 70) []);
      try reflexivity.
    apply isCapsOnly_false_iff. reflexivity.
  - apply (naming_check_iff_caps_only Samples.caps_mode
             (Samples.name "MY_MACRO") (Samples.ONE 80) []);
      try reflexivity.
    apply isCapsOnly_iff. reflexivity.
Defined.

(** C10. The allowed pattern has no effect on the naming check: in
    caps-only mode a macro definition that no rule rejects, whose name
    matches the pattern but is not written with upper-case letters, digits
    and underscores only, still receives the naming diagnostic, and the
    outcome is the same under any other pattern. *)
Theorem allowed_pattern_does_not_excuse_names (CB : MacroUsageCallbacks)
    (MacroNameTok : Token) (MD : MacroDirective) (Sink : list Diagnostic) :
  CheckCapsOnly CB = true ->
  rejects CB MacroNameTok MD = false ->
  Regex_match (RegExp CB) (macroName MacroNameTok) = true ->
  ~ Forall capsChar (chars (macroName MacroNameTok)) ->
  MacroDefined CB MacroNameTok MD Sink =
  (tt, Sink ++ [namingDiag MacroNameTok MD]) /\
  forall Other : Regex,
    MacroDefined (mkCallbacks Other true (IgnoreCommandLineMacros CB))
      MacroNameTok MD Sink =
    MacroDefined CB MacroNameTok MD Sink.
Proof.
  intros HC HR HM HN. apply isCapsOnly_false_iff in HN.
  split.
  - rewrite (MacroDefined_naming _ _ _ _ HR HC), HN. reflexivity.
  - intros Other.
    rewrite (MacroDefined_naming _ _ _ _ HR HC).
    rewrite MacroDefined_naming; [reflexivity | exact HR | reflexivity].
Qed.

Lemma allowed_pattern_does_not_excuse_names_witness :
  Regex_match Samples.debug_pattern "DEBUG_myLevel" = true /\
  MacroDefined Samples.caps_mode (Samples.name "DEBUG_myLevel")
    (Samples.ONE 110) [] =
  (tt, [namingDiag (Samples.name "DEBUG_myLevel") (Samples.ONE 110)]).
Proof.
  split; [reflexivity|].
  apply (allowed_pattern_does_not_excuse_names Samples.caps_mode
           (Samples.name "DEBUG_myLevel") (Samples.ONE 110) []);
    try reflexivity.
  apply isCapsOnly_false_iff. reflexivity.
Defined.

(* ------------------------------------------------------------------ *)
(** ** Runs *)

(** C9. Two runs over the same sequence of macro-definition events with the
    same configuration add the same diagnostics in the same order, whatever
    their sinks held before: what a run adds is the concatenation, in event
    order, of what each event adds on its own. *)
Theorem runs_are_repeatable (CB : MacroUsageCallbacks)
    (Events : list MacroDefinitionEvent) (Sink1 Sink2 : list Diagnostic) :
  exists Ds,
    run CB Events Sink1 = (tt, Sink1 ++ Ds) /\
    run CB Events Sink2 = (tt, Sink2 ++ Ds) /\
    Ds = flat_map (emitted CB) Events.
Proof.
  exists (flat_map (emitted CB) Events).
  repeat split; apply run_appends.
Qed.

(* ------------------------------------------------------------------ *)
(** ** What a diagnostic says, and when there is one *)

(** Every diagnostic that a macro definition adds is placed at the location
    of the definition, names the macro in its argument and uses one of the
    four fixed format strings. *)
Theorem diagnostics_describe_the_definition (CB : MacroUsageCallbacks)
    (MacroNameTok : Token) (MD : MacroDirective) (D : Diagnostic) :
  In D (emitted CB (mkEvent MacroNameTok MD)) ->
  diag_loc D = getLocation MD /\
  diag_arg D = macroName MacroNameTok /\
  In (diag_message D)
     [constant_message; variadic_message; function_like_message;
      naming_message].
Proof.
  rewrite emitted_table. intros HIn.
  repeat match type of HIn with
         | In _ (if ?c then _ else _) => destruct c
         end;
    try contradiction; destruct HIn as [<- | []]; simpl; intuition auto.
Qed.

Lemma diagnostics_describe_the_definition_witness :
  diag_loc (variadicDiag (Samples.name "LOG") Samples.LOG) = Samples.here 30 /\
  diag_arg (variadicDiag (Samples.name "LOG") Samples.LOG) = "LOG".
Proof.
  destruct (diagnostics_describe_the_definition Samples.usage_mode
              (Samples.name "LOG") Samples.LOG
              (variadicDiag (Samples.name "LOG") Samples.LOG))
    as (HLoc & HArg & _).
  - left. reflexivity.
  - split; [exact HLoc | exact HArg].
Defined.

(** A macro definition is reported if and only if none of the six
    exclusions applies to it and either the check is in caps-only mode and
    some character of the name is not an upper-case letter, a digit or an
    underscore, or the check is not in caps-only mode, the pattern does not
    match the name and the macro is all-literal, variadic or
    function-like. *)
Theorem reported_iff (CB : MacroUsageCallbacks)
    (MacroNameTok : Token) (MD : MacroDirective) :
  emitted CB (mkEvent MacroNameTok MD) <> [] <->
  (loc_file (getLocation MD) <> BuiltinFile /\
   isUsedForHeaderGuard (getMacroInfo MD) = false /\
   tokens (getMacroInfo MD) <> [] /\
   ~ Exists isHashOrHashHash (tokens (getMacroInfo MD)) /\
   ~ (IgnoreCommandLineMacros CB = true /\
      loc_file (getLocation MD) = CommandLineFile) /\
   macroName MacroNameTok <> "__GCC_HAVE_DWARF2_CFI_ASM") /\
  ((CheckCapsOnly CB = true /\
    ~ Forall capsChar (chars (macroName MacroNameTok))) \/
   (CheckCapsOnly CB = false /\
    Regex_match (RegExp CB) (macroName MacroNameTok) = false /\
    (allLiteral MD \/ isVariadic (getMacroInfo MD) = true \/
     isFunctionLike (getMacroInfo MD) = true))).
Proof.
  assert (HRej : rejects CB MacroNameTok MD = false <->
                 loc_file (getLocation MD) <> BuiltinFile /\
                 isUsedForHeaderGuard (getMacroInfo MD) = false /\
                 tokens (getMacroInfo MD) <> [] /\
                 ~ Exists isHashOrHashHash (tokens (getMacroInfo MD)) /\
                 ~ (IgnoreCommandLineMacros CB = true /\
                    loc_file (getLocation MD) = CommandLineFile) /\
                 macroName MacroNameTok <> "__GCC_HAVE_DWARF2_CFI_ASM").
  { rewrite <- not_true_iff_false, rejects_iff. unfold exempt_name.
    destruct (isUsedForHeaderGuard (getMacroInfo MD)); intuition congruence. }
  rewrite <- HRej, <- isCapsOnly_false_iff, <- all_literal_iff, emitted_table.
  destruct (rejects CB MacroNameTok MD); [intuition congruence|].
  destruct (CheckCapsOnly CB).
  { destruct (isCapsOnly _); intuition congruence. }
  destruct (Regex_match _ _); [intuition congruence|].
  destruct (STLExtras.all_of _ _); [intuition congruence|].
  destruct (isVariadic _); [intuition congruence|].
  destruct (isFunctionLike _); intuition congruence.
Qed.

(* ------------------------------------------------------------------ *)
(** ** Definitions made on the command line *)

(** With [IgnoreCommandLineMacros] set, a macro defined on the command line
    adds nothing to the sink, in both modes and whatever its name and body
    are. *)
Theorem command_line_definitions_are_ignored (CB : MacroUsageCallbacks)
    (MacroNameTok : Token) (MD : MacroDirective) (Sink : list Diagnostic) :
  IgnoreCommandLineMacros CB = true ->
  loc_file (getLocation MD) = CommandLineFile ->
  MacroDefined CB MacroNameTok MD Sink = (tt, Sink).
Proof.
  intros HI HL. apply MacroDefined_rejected, rejects_iff. tauto.
Qed.

Lemma command_line_definitions_are_ignored_witness :
  MacroDefined Samples.usage_mode (Samples.name "MAX")
    (mkMacroDirective (mkLoc CommandLineFile 1) (getMacroInfo Samples.MAX)) [] =
  (tt, []).
Proof.
  apply (command_line_definitions_are_ignored Samples.usage_mode
           (Samples.name "MAX")
           (mkMacroDirective (mkLoc CommandLineFile 1)
              (getMacroInfo Samples.MAX)) []);
    reflexivity.
Defined.

(** [IgnoreCommandLineMacros] matters for command-line definitions only:
    for a macro defined anywhere else the outcome is the same with the
    option on and off. *)
Theorem command_line_option_is_local (R : Regex) (CapsOnly : bool)
    (MacroNameTok : Token) (MD : MacroDirective) (Sink : list Diagnostic) :
  loc_file (getLocation MD) <> CommandLineFile ->
  MacroDefined (mkCallbacks R CapsOnly true) MacroNameTok MD Sink =
  MacroDefined (mkCallbacks R CapsOnly false) MacroNameTok MD Sink.
Proof.
  intros HL. rewrite !MacroDefined_emitted. f_equal. f_equal.
  rewrite !emitted_table.
  assert (HR : rejects (mkCallbacks R CapsOnly true) MacroNameTok MD =
               rejects (mkCallbacks R CapsOnly false) MacroNameTok MD).
  { unfold rejects. simpl.
    rewrite <- command_line_iff in HL.
    destruct (SM.isWrittenInCommandLineFile (getLocation MD));
      [now contradiction HL|reflexivity]. }
  rewrite HR. reflexivity.
Qed.

Lemma command_line_option_is_local_witness :
  MacroDefined (mkCallbacks Samples.debug_pattern false true)
    (Samples.name "SQUARE") Samples.SQUARE [] =
  MacroDefined (mkCallbacks Samples.debug_pattern false false)
    (Samples.name "SQUARE") Samples.SQUARE [].
Proof.
  apply (command_line_option_is_local Samples.debug_pattern false
           (Samples.name "SQUARE") Samples.SQUARE []).
  discriminate.
Defined.

(** The place of a definition plays no part in the decision beyond the
    builtin-file test and the command-line test: at two locations in the
    same class of file a macro draws the same message with the same
    argument. *)
Theorem location_only_matters_by_class (CB : MacroUsageCallbacks)
    (MacroNameTok : Token) (Info : MacroInfo) (Loc1 Loc2 : SourceLocation) :
  loc_file Loc1 = loc_file Loc2 ->
  map wording (emitted CB (mkEvent MacroNameTok (mkMacroDirective Loc1 Info))) =
  map wording (emitted CB (mkEvent MacroNameTok (mkMacroDirective Loc2 Info))).
Proof.
  intros HL. rewrite !emitted_table.
  assert (HR : rejects CB MacroNameTok (mkMacroDirective Loc1 Info) =
               rejects CB MacroNameTok (mkMacroDirective Loc2 Info)).
  { unfold rejects, SM.isWrittenInBuiltinFile, SM.isWrittenInCommandLineFile.
    simpl. rewrite HL. reflexivity. }
  rewrite HR. simpl. break_ifs; reflexivity.
Qed.

Lemma location_only_matters_by_class_witness :
  map wording (emitted Samples.usage_mode
                 (mkEvent (Samples.name "MAX")
                    (mkMacroDirective (Samples.here 10)
                       (getMacroInfo Samples.MAX)))) =
  map wording (emitted Samples.usage_mode
                 (mkEvent (Samples.name "MAX")
                    (mkMacroDirective (Samples.here 999)
                       (getMacroInfo Samples.MAX)))).
Proof.
  apply (location_only_matters_by_class Samples.usage_mode
           (Samples.name "MAX") (getMacroInfo Samples.MAX)
           (Samples.here 10) (Samples.here 999)).
  reflexivity.
Defined.

(* ------------------------------------------------------------------ *)
(** ** The pattern, the body and the name *)

Lemma rejects_ignores_pattern_and_mode (R1 R2 : Regex) (C1 C2 Ignore : bool)
    (MacroNameTok : Token) (MD : MacroDirective) :
  rejects (mkCallbacks R1 C1 Ignore) MacroNameTok MD =
  rejects (mkCallbacks R2 C2 Ignore) MacroNameTok MD.
Proof. reflexivity. Qed.

(** Allowing more names never adds a diagnostic: under a pattern that
    matches every name an earlier pattern matches, a macro definition is
    either not reported or reported exactly as before. *)
Theorem wider_pattern_reports_less (R1 R2 : Regex) (CapsOnly Ignore : bool)
    (MacroNameTok : Token) (MD : MacroDirective) :
  (forall N, Regex_match R1 N = true -> Regex_match R2 N = true) ->
  emitted (mkCallbacks R2 CapsOnly Ignore) (mkEvent MacroNameTok MD) = [] \/
  emitted (mkCallbacks R2 CapsOnly Ignore) (mkEvent MacroNameTok MD) =
  emitted (mkCallbacks R1 CapsOnly Ignore) (mkEvent MacroNameTok MD).
Proof.
  intros HSub. rewrite !emitted_table.
  rewrite (rejects_ignores_pattern_and_mode R2 R1 CapsOnly CapsOnly Ignore).
  simpl.
  destruct (rejects _ _ _); [now left|].
  destruct CapsOnly; [now right|].
  destruct (Regex_match R2 (macroName MacroNameTok)) eqn:H2; [now left|].
  destruct (Regex_match R1 (macroName MacroNameTok)) eqn:H1; [|now right].
  apply HSub in H1. congruence.
Qed.

Lemma wider_pattern_reports_less_witness :
  emitted (mkCallbacks (mkRegex (fun _ => true)) false true)
    (mkEvent (Samples.name "MAX") Samples.MAX) = [] \/
  emitted (mkCallbacks (mkRegex (fun _ => true)) false true)
    (mkEvent (Samples.name "MAX") Samples.MAX) =
  emitted (mkCallbacks Samples.debug_pattern false true)
    (mkEvent (Samples.name "MAX") Samples.MAX).
Proof.
  apply (wider_pattern_reports_less Samples.debug_pattern
           (mkRegex (fun _ => true)) false true
           (Samples.name "MAX") Samples.MAX).
  intros N _. reflexivity.
Defined.

(** [warnMacro] takes an empty body for an all-literal one: handed a macro
    without body tokens it reports a constant, whatever the variadic and
    function-like flags say.  It is the empty-body exclusion of
    [MacroDefined] that keeps such a macro unreported. *)
Theorem warnMacro_empty_body (MD : MacroDirective) (N : string)
    (Sink : list Diagnostic) :
  tokens (getMacroInfo MD) = [] ->
  warnMacro MD N Sink =
  (tt, Sink ++ [mkDiagnostic (getLocation MD) constant_message N]) /\
  forall (CB : MacroUsageCallbacks) (MacroNameTok : Token),
    MacroDefined CB MacroNameTok MD Sink = (tt, Sink).
Proof.
  intros HE. split.
  - apply warnMacro_constant. unfold allLiteral. rewrite HE. constructor.
  - intros CB MacroNameTok. apply MacroDefined_rejected, rejects_iff. tauto.
Qed.

Lemma warnMacro_empty_body_witness :
  warnMacro (Samples.function_like (Samples.here 5) true []) "EMPTY" [] =
  (tt, [mkDiagnostic (Samples.here 5) constant_message "EMPTY"]).
Proof.
  apply (warnMacro_empty_body
           (Samples.function_like (Samples.here 5) true []) "EMPTY" []).
  reflexivity.
Defined.

(** [isCapsOnly] judges a name character by character: a name put together
    from two parts is caps-only exactly when both parts are. *)
Theorem isCapsOnly_append (N1 N2 : string) :
  isCapsOnly (N1 ++ N2) = isCapsOnly N1 && isCapsOnly N2.
Proof.
  unfold isCapsOnly, STLExtras.all_of, chars.
  induction N1 as [|C N1 IH]; simpl.
  - reflexivity.
  - rewrite IH. now rewrite andb_assoc.
Qed.

(** In caps-only mode the body of a macro plays no part beyond the
    exclusions: two definitions of one name at one location that both pass
    the exclusions have the same outcome, whatever their tokens and their
    variadic and function-like flags are. *)
Theorem naming_check_ignores_the_body (CB : MacroUsageCallbacks)
    (MacroNameTok : Token) (Loc : SourceLocation) (Info1 Info2 : MacroInfo) :
  CheckCapsOnly CB = true ->
  rejects CB MacroNameTok (mkMacroDirective Loc Info1) = false ->
  rejects CB MacroNameTok (mkMacroDirective Loc Info2) = false ->
  emitted CB (mkEvent MacroNameTok (mkMacroDirective Loc Info1)) =
  emitted CB (mkEvent MacroNameTok (mkMacroDirective Loc Info2)).
Proof.
  intros HC HR1 HR2. rewrite !emitted_table, HR1, HR2, HC. reflexivity.
Qed.

Lemma naming_check_ignores_the_body_witness :
  emitted Samples.caps_mode
    (mkEvent (Samples.name "square")
       (mkMacroDirective (Samples.here 70) (getMacroInfo Samples.SQUARE))) =
  emitted Samples.caps_mode
    (mkEvent (Samples.name "square")
       (mkMacroDirective (Samples.here 70) (getMacroInfo Samples.FLAG))).
Proof.
  apply (naming_check_ignores_the_body Samples.caps_mode
           (Samples.name "square") (Samples.here 70)
           (getMacroInfo Samples.SQUARE) (getMacroInfo Samples.FLAG));
    reflexivity.
Defined.

(** With caps-only mode off the spelling of the name plays no part beyond
    the exempt name and the pattern: two names that pass both draw the same
    message for the same definition, whether they are written in upper case
    or not. *)
Theorem usage_check_ignores_the_spelling (CB : MacroUsageCallbacks)
    (Tok1 Tok2 : Token) (MD : MacroDirective) :
  CheckCapsOnly CB = false ->
  rejects CB Tok1 MD = false -> rejects CB Tok2 MD = false ->
  Regex_match (RegExp CB) (macroName Tok1) = false ->
  Regex_match (RegExp CB) (macroName Tok2) = false ->
  map diag_message (emitted CB (mkEvent Tok1 MD)) =
  map diag_message (emitted CB (mkEvent Tok2 MD)).
Proof.
  intros HC HR1 HR2 HM1 HM2.
  rewrite !emitted_table, HR1, HR2, HC, HM1, HM2.
  break_ifs; reflexivity.
Qed.

Lemma usage_check_ignores_the_spelling_witness :
  map diag_message
    (emitted Samples.usage_mode (mkEvent (Samples.name "SQUARE") Samples.SQUARE)) =
  map diag_message
    (emitted Samples.usage_mode (mkEvent (Samples.name "square") Samples.SQUARE)).
Proof.
  apply (usage_check_ignores_the_spelling Samples.usage_mode
           (Samples.name "SQUARE") (Samples.name "square") Samples.SQUARE);
    reflexivity.
Defined.

(* ------------------------------------------------------------------ *)
(** ** Whole runs *)

Lemma emitted_at_most_one (CB : MacroUsageCallbacks) (Ev : MacroDefinitionEvent) :
  List.length (emitted CB Ev) <= 1.
Proof.
  destruct Ev as [MacroNameTok MD]. rewrite emitted_table.
  break_ifs; simpl; lia.
Qed.

(** A run never removes or reorders what the sink held, and adds at most
    one diagnostic per macro definition. *)
Theorem run_adds_at_most_one_per_event (CB : MacroUsageCallbacks)
    (Events : list MacroDefinitionEvent) (Sink : list Diagnostic) :
  firstn (List.length Sink) (snd (run CB Events Sink)) = Sink /\
  List.length (snd (run CB Events Sink)) <=
  List.length Sink + List.length Events.
Proof.
  rewrite run_appends. simpl. split.
  - rewrite firstn_app, Nat.sub_diag, firstn_all. simpl. apply app_nil_r.
  - rewrite length_app. apply Nat.add_le_mono_l.
    induction Events as [|Ev Events IH]; simpl; [lia|].
    rewrite length_app. pose proof (emitted_at_most_one CB Ev). lia.
Qed.

(** The exclusions act as a filter on the stream of events: a run over all
    macro definitions ends with the same sink as a run over those that pass
    the exclusions. *)
Theorem run_skips_rejected_events (CB : MacroUsageCallbacks)
    (Events : list MacroDefinitionEvent) (Sink : list Diagnostic) :
  run CB Events Sink = run CB (survivors CB Events) Sink.
Proof.
  rewrite !run_appends. f_equal. f_equal.
  induction Events as [|[MacroNameTok MD] Events IH]; simpl; [reflexivity|].
  destruct (rejects CB MacroNameTok MD) eqn:HR; simpl.
  - rewrite emitted_table, HR. exact IH.
  - now rewrite IH.
Qed.

(* ------------------------------------------------------------------ *)
(** ** Storing the options and registering the callbacks *)

Lemma NameMap_laws : storeLaws NameMap_store NameMap_get.
Proof.
  unfold storeLaws, NameMap_store, NameMap_get. split.
  - intros Opts K V. now rewrite String.eqb_refl.
  - intros Opts K K' V HNe. apply String.eqb_neq in HNe. now rewrite HNe.
Qed.

(** After [storeOptions] each of the three options is read back under its
    own name with the value the check holds: no store of the three
    overwrites another. *)
Theorem storeOptions_round_trip (OptionMap : Type)
    (store : OptionMap -> string -> OptionValue -> OptionMap)
    (get : OptionMap -> string -> option OptionValue)
    (This : Chk.MacroUsageCheck) (Opts : OptionMap) :
  storeLaws store get ->
  get (storeOptions OptionMap store This Opts) "AllowedRegexp" =
    Some (StringValue (Chk.AllowedRegexp This)) /\
  get (storeOptions OptionMap store This Opts) "CheckCapsOnly" =
    Some (BoolValue (Chk.CheckCapsOnly This)) /\
  get (storeOptions OptionMap store This Opts) "IgnoreCommandLineMacros" =
    Some (BoolValue (Chk.IgnoreCommandLineMacros This)).
Proof.
  intros [HSame HOther]. unfold storeOptions. repeat split.
  - rewrite !HOther by discriminate. apply HSame.
  - rewrite HOther by discriminate. apply HSame.
  - apply HSame.
Qed.

Lemma storeOptions_round_trip_witness :
  NameMap_get
    (storeOptions NameMap NameMap_store (Chk.mkCheck "^DEBUG_*" false true)
       NameMap_empty) "CheckCapsOnly" = Some (BoolValue false).
Proof.
  apply (storeOptions_round_trip NameMap NameMap_store NameMap_get
           (Chk.mkCheck "^DEBUG_*" false true) NameMap_empty).
  exact NameMap_laws.
Defined.

(** [storeOptions] writes under its three names only: every other entry of
    the option map is read as before. *)
Theorem storeOptions_keeps_other_options (OptionMap : Type)
    (store : OptionMap -> string -> OptionValue -> OptionMap)
    (get : OptionMap -> string -> option OptionValue)
    (This : Chk.MacroUsageCheck) (Opts : OptionMap) (K : string) :
  storeLaws store get ->
  K <> "AllowedRegexp" -> K <> "CheckCapsOnly" ->
  K <> "IgnoreCommandLineMacros" ->
  get (storeOptions OptionMap store This Opts) K = get Opts K.
Proof.
  intros [_ HOther] H1 H2 H3. unfold storeOptions.
  rewrite !HOther by congruence. reflexivity.
Qed.

Lemma storeOptions_keeps_other_options_witness :
  NameMap_get
    (storeOptions NameMap NameMap_store (Chk.mkCheck "^DEBUG_*" false true)
       (NameMap_store NameMap_empty "HeaderFileExtensions" (StringValue "h")))
    "HeaderFileExtensions" = Some (StringValue "h").
Proof.
  rewrite (storeOptions_keeps_other_options NameMap NameMap_store NameMap_get
             (Chk.mkCheck "^DEBUG_*" false true)
             (NameMap_store NameMap_empty "HeaderFileExtensions"
                (StringValue "h"))
             "HeaderFileExtensions" NameMap_laws);
    [reflexivity | discriminate | discriminate | discriminate].
Defined.

(** [registerPPCallbacks] hands the preprocessor one callbacks object, and
    that object works by the options of the check: with
    [IgnoreCommandLineMacros] set it leaves command-line definitions alone;
    with [CheckCapsOnly] set it reports names only; with [CheckCapsOnly] off
    it reports usage categories only, and none for a name that the compiled
    [AllowedRegexp] matches. *)
Theorem registered_callbacks_follow_the_options (compile : string -> Regex)
    (This : Chk.MacroUsageCheck) :
  let CB := MacroUsageCallbacks_new compile (Chk.AllowedRegexp This)
              (Chk.CheckCapsOnly This) (Chk.IgnoreCommandLineMacros This) in
  (forall (Preprocessor : Type)
          (addPPCallbacks : Preprocessor -> MacroUsageCallbacks -> Preprocessor)
          (PP : Preprocessor),
     registerPPCallbacks compile Preprocessor addPPCallbacks This PP =
     addPPCallbacks PP CB) /\
  (Chk.IgnoreCommandLineMacros This = true ->
   forall MacroNameTok MD Sink,
     loc_file (getLocation MD) = CommandLineFile ->
     MacroDefined CB MacroNameTok MD Sink = (tt, Sink)) /\
  (Chk.CheckCapsOnly This = true ->
   forall Ev D, In D (emitted CB Ev) -> isNamingDiagnostic D = true) /\
  (Chk.CheckCapsOnly This = false ->
   forall Ev D, In D (emitted CB Ev) ->
     isUsageDiagnostic D = true /\
     Regex_match (compile (Chk.AllowedRegexp This))
       (macroName (ev_name Ev)) = false).
Proof.
  intros CB. split; [reflexivity|]. split; [|split].
  - intros HI MacroNameTok MD Sink HL.
    apply MacroDefined_rejected, rejects_iff. subst CB. simpl. tauto.
  - intros HC [MacroNameTok MD] D. rewrite emitted_table.
    subst CB. unfold MacroUsageCallbacks_new. simpl. rewrite HC.
    break_ifs; intros HIn; try contradiction.
    destruct HIn as [<- | []]. reflexivity.
  - intros HC [MacroNameTok MD] D. rewrite emitted_table.
    subst CB. unfold MacroUsageCallbacks_new. simpl. rewrite HC.
    destruct (rejects _ _ _); [contradiction|].
    destruct (Regex_match _ _); [contradiction|].
    break_ifs; intros HIn; try contradiction;
      destruct HIn as [<- | []]; split; reflexivity.
Qed.

Lemma registered_callbacks_follow_the_options_witness :
  MacroDefined
    (MacroUsageCallbacks_new (fun _ => Samples.debug_pattern)
       "^DEBUG_*" true true)
    (Samples.name "myMacro")
    (mkMacroDirective (mkLoc CommandLineFile 1) (getMacroInfo Samples.MAX)) [] =
  (tt, []).
Proof.
  apply (registered_callbacks_follow_the_options
           (fun _ => Samples.debug_pattern)
           (Chk.mkCheck "^DEBUG_*" true true));
    reflexivity.
Defined.
